(** * Size classes of TCMalloc: the tables of [tcmalloc/size_classes.cc]

    The translation unit consists of eight constant tables, one per
    combination of the aligned-new test
    [defined(__cpp_aligned_new) && __STDCPP_DEFAULT_NEW_ALIGNMENT__ <= 8]
    and of [TCMALLOC_PAGE_SHIFT] (13, 15, 18 or 12).  Each branch pins
    [kMaxSize] with a [static_assert], declares [kCount] and initialises
    [kSizeClassesList[kCount]]; [kSizeClasses] is a span over that array.

    This file embeds the tables as they are written and proves the
    invariants of the size-class table over them. *)

From Stdlib Require Import ZArith List Bool Lia QArith.
Import ListNotations.

Local Open Scope Z_scope.

(** ** One row of a table

    The fields are the first four columns of the tables: [bytes] is the
    size of the size class, [pages] the number of pages per span,
    [batch] the preferred number of objects for transfers between caches
    and [cap] the maximum cpu cache capacity.  The members are unsigned
    32-bit integers; every literal of the file is far below [2^32], so [Z]
    holds them without wrap-around. *)
Record SizeClassInfo : Set := Info {
  bytes : Z;
  pages : Z;
  batch : Z;
  cap   : Z
}.

(** A value-initialised row, as aggregate initialisation leaves the
    elements of an array that have no initialiser. *)
Definition zero_info : SizeClassInfo := Info 0 0 0 0.

(** [T a[n] = { rows }]: the first [n] initialisers, completed with
    value-initialised elements when there are fewer than [n].  (More than
    [n] initialisers are ill-formed; [initializer_fits] records that no
    table has them.) *)
Definition array_init (n : nat) (rows : list SizeClassInfo) : list SizeClassInfo :=
  firstn n rows ++ repeat zero_info (n - length rows).

Definition initializer_fits (n : nat) (rows : list SizeClassInfo) : bool :=
  Nat.leb (length rows) n.

Definition SizeClassInfo_eqb (x y : SizeClassInfo) : bool :=
  (bytes x =? bytes y) && (pages x =? pages y) &&
  (batch x =? batch y) && (cap x =? cap y).

(** ** The eight branches *)

(** [#if defined(__cpp_aligned_new) && __STDCPP_DEFAULT_NEW_ALIGNMENT__ <= 8], [TCMALLOC_PAGE_SHIFT == 13]. *)
Module Aligned8_Shift13.

Definition kMaxSize : Z := 262144.
Definition kCount : nat := 82.

(*        bytes pages batch   cap *)
Definition initializer : list SizeClassInfo := [
  Info      0    0    0    0;
  Info      8    1   32 2024;
  Info     16    1   32 2024;
  Info     32    1   32 2027;
  Info     64    1   32 2024;
  Info     72    1   32 1275;
  Info     80    1   32 2024;
  Info     88    1   32 1031;
  Info     96    1   32 1206;
  Info    104    1   32  489;
  Info    112    1   32  804;
  Info    120    1   32  505;
  Info    128    1   32  957;
  Info    136    1   32  355;
  Info    144    1   32  646;
  Info    160    1   32  721;
  Info    176    1   32  378;
  Info    192    1   32  491;
  Info    208    1   32  326;
  Info    224    1   32  284;
  Info    240    1   32  266;
  Info    256    1   32  613;
  Info    264    1   32  155;
  Info    280    1   32  292;
  Info    312    1   32  347;
  Info    336    1   32  360;
  Info    352    1   32  188;
  Info    384    1   32  244;
  Info    408    1   32  213;
  Info    424    1   32  162;
  Info    448    1   32  232;
  Info    480    1   32  194;
  Info    512    1   32  409;
  Info    576    1   32  252;
  Info    640    1   32  214;
  Info    704    1   32  188;
  Info    768    1   32  185;
  Info    896    1   32  203;
  Info   1024    1   32  377;
  Info   1152    2   32  192;
  Info   1280    2   32  170;
  Info   1408    2   32  160;
  Info   1536    2   32  166;
  Info   1792    2   32  163;
  Info   2048    2   32  202;
  Info   2304    2   28  158;
  Info   2688    2   24  149;
  Info   2816    3   23  134;
  Info   3200    2   20  141;
  Info   3456    3   18  133;
  Info   3584    4   18  131;
  Info   4096    1   16  350;
  Info   4736    3   13  140;
  Info   5376    2   12  132;
  Info   6144    3   10  140;
  Info   7168    7    9  134;
  Info   8192    1    8  207;
  Info   9472    5    6  134;
  Info  10240    4    6  129;
  Info  12288    3    5  134;
  Info  13568    5    4  129;
  Info  14336    7    4  128;
  Info  16384    2    4  141;
  Info  20480    5    3  132;
  Info  24576    3    2  131;
  Info  28672    7    2  130;
  Info  32768    4    2  143;
  Info  40960    5    2  130;
  Info  49152    6    2  128;
  Info  57344    7    2  128;
  Info  65536    8    2  133;
  Info  73728    9    2  129;
  Info  81920   10    2  128;
  Info  98304   12    2  128;
  Info 114688   14    2  128;
  Info 131072   16    2  128;
  Info 139264   17    2  128;
  Info 155648   19    2  127;
  Info 172032   21    2  127;
  Info 204800   25    2  127;
  Info 229376   28    2  127;
  Info 262144   32    2  128
].

Definition kSizeClassesList : list SizeClassInfo :=
  array_init kCount initializer.

End Aligned8_Shift13.

(** [#if defined(__cpp_aligned_new) && __STDCPP_DEFAULT_NEW_ALIGNMENT__ <= 8], [TCMALLOC_PAGE_SHIFT == 15]. *)
Module Aligned8_Shift15.

Definition kMaxSize : Z := 262144.
Definition kCount : nat := 74.

(*        bytes pages batch   cap *)
Definition initializer : list SizeClassInfo := [
  Info      0    0    0    0;
  Info      8    1   32 1824;
  Info     16    1   32 1824;
  Info     32    1   32 1824;
  Info     64    1   32 1824;
  Info     72    1   32 1241;
  Info     80    1   32 1824;
  Info     88    1   32 1267;
  Info     96    1   32 1590;
  Info    104    1   32  718;
  Info    112    1   32  844;
  Info    120    1   32  678;
  Info    128    1   32 1447;
  Info    136    1   32  428;
  Info    144    1   32  599;
  Info    160    1   32  744;
  Info    176    1   32  461;
  Info    192    1   32  603;
  Info    208    1   32  297;
  Info    240    1   32  686;
  Info    256    1   32  811;
  Info    280    1   32  385;
  Info    304    1   32  289;
  Info    320    1   32  203;
  Info    352    1   32  398;
  Info    400    1   32  298;
  Info    448    1   32  255;
  Info    512    1   32  480;
  Info    576    1   32  238;
  Info    640    1   32  284;
  Info    704    1   32  223;
  Info    768    1   32  198;
  Info    896    1   32  257;
  Info   1024    1   32  364;
  Info   1152    1   32  197;
  Info   1280    1   32  175;
  Info   1408    1   32  175;
  Info   1536    1   32  163;
  Info   1792    1   32  158;
  Info   1920    1   32  126;
  Info   2048    1   32  170;
  Info   2176    1   30  162;
  Info   2304    1   28  130;
  Info   2688    1   24  153;
  Info   3200    1   20  142;
  Info   3584    1   18  127;
  Info   4096    1   16  321;
  Info   4608    1   14  135;
  Info   5376    1   12  128;
  Info   6528    1   10  143;
  Info   8192    1    8  165;
  Info   9344    2    7  127;
  Info  10880    1    6  120;
  Info  13056    2    5  122;
  Info  13952    3    4  116;
  Info  16384    1    4  146;
  Info  19072    3    3  125;
  Info  21760    2    3  117;
  Info  24576    3    2  117;
  Info  28672    7    2  121;
  Info  32768    1    2  135;
  Info  38144    5    2  117;
  Info  40960    4    2  114;
  Info  49152    3    2  115;
  Info  57344    7    2  117;
  Info  65536    2    2  123;
  Info  81920    5    2  118;
  Info  98304    3    2  115;
  Info 114688    7    2  115;
  Info 131072    4    2  142;
  Info 163840    5    2  115;
  Info 196608    6    2  115;
  Info 229376    7    2  113;
  Info 262144    8    2  117
].

Definition kSizeClassesList : list SizeClassInfo :=
  array_init kCount initializer.

End Aligned8_Shift15.

(** [#if defined(__cpp_aligned_new) && __STDCPP_DEFAULT_NEW_ALIGNMENT__ <= 8], [TCMALLOC_PAGE_SHIFT == 18]. *)
Module Aligned8_Shift18.

Definition kMaxSize : Z := 262144.
Definition kCount : nat := 85.

(*        bytes pages batch   cap *)
Definition initializer : list SizeClassInfo := [
  Info      0    0    0    0;
  Info      8    1   32 1912;
  Info     16    1   32 1912;
  Info     32    1   32 1912;
  Info     64    1   32 1918;
  Info     72    1   32 1912;
  Info     80    1   32 1691;
  Info     88    1   32  632;
  Info     96    1   32  898;
  Info    104    1   32  510;
  Info    112    1   32  758;
  Info    128    1   32 1197;
  Info    144    1   32  992;
  Info    160    1   32  841;
  Info    176    1   32  348;
  Info    192    1   32  415;
  Info    208    1   32  299;
  Info    232    1   32  623;
  Info    256    1   32  737;
  Info    280    1   32  365;
  Info    312    1   32  538;
  Info    336    1   32  448;
  Info    376    1   32  220;
  Info    416    1   32  295;
  Info    472    1   32  275;
  Info    512    1   32  339;
  Info    576    1   32  266;
  Info    704    1   32  320;
  Info    768    1   32  181;
  Info    896    1   32  212;
  Info   1024    1   32  340;
  Info   1152    1   32  194;
  Info   1280    1   32  170;
  Info   1408    1   32  148;
  Info   1664    1   32  258;
  Info   1920    1   32  212;
  Info   2048    1   32  183;
  Info   2176    1   30  312;
  Info   2304    1   28  153;
  Info   2560    1   25  146;
  Info   2816    1   23  129;
  Info   3072    1   21  130;
  Info   3328    1   19  147;
  Info   3584    1   18  126;
  Info   3840    1   17  126;
  Info   4096    1   16  273;
  Info   4224    1   15  132;
  Info   4736    1   13  136;
  Info   5248    1   12  147;
  Info   5760    1   11  127;
  Info   6528    1   10  134;
  Info   7168    1    9  123;
  Info   8192    1    8  167;
  Info   9344    1    7  130;
  Info  10880    1    6  126;
  Info  11904    1    5  129;
  Info  13056    1    5  126;
  Info  13696    1    4  120;
  Info  14464    1    4  121;
  Info  15360    1    4  121;
  Info  16384    1    4  139;
  Info  17408    1    3  123;
  Info  18688    1    3  125;
  Info  20096    1    3  120;
  Info  21760    1    3  121;
  Info  23808    1    2  125;
  Info  26112    1    2  122;
  Info  29056    1    2  120;
  Info  32768    1    2  170;
  Info  37376    1    2  122;
  Info  43648    1    2  120;
  Info  45568    2    2  119;
  Info  52352    1    2  120;
  Info  56064    2    2  119;
  Info  65536    1    2  122;
  Info  74880    2    2  120;
  Info  87296    1    2  120;
  Info 104832    2    2  120;
  Info 112256    3    2  119;
  Info 131072    1    2  120;
  Info 149760    3    2  119;
  Info 174720    2    2  119;
  Info 196608    3    2  119;
  Info 209664    4    2  119;
  Info 262144    1    2  122
].

Definition kSizeClassesList : list SizeClassInfo :=
  array_init kCount initializer.

End Aligned8_Shift18.

(** [#if defined(__cpp_aligned_new) && __STDCPP_DEFAULT_NEW_ALIGNMENT__ <= 8], [TCMALLOC_PAGE_SHIFT == 12]. *)
Module Aligned8_Shift12.

Definition kMaxSize : Z := 8192.
Definition kCount : nat := 42.

(*        bytes pages batch   cap *)
Definition initializer : list SizeClassInfo := [
  Info      0    0    0    0;
  Info      8    1   32 2622;
  Info     16    1   32 2622;
  Info     32    1   32 2622;
  Info     64    1   32 2622;
  Info     72    1   32  927;
  Info     80    1   32 2622;
  Info     96    1   32 2160;
  Info    104    1   32  670;
  Info    112    1   32 1197;
  Info    128    1   32 1607;
  Info    144    1   32 1292;
  Info    160    1   32 1167;
  Info    176    1   32  563;
  Info    192    1   32  610;
  Info    208    1   32  394;
  Info    224    1   32  551;
  Info    240    1   32  319;
  Info    256    1   32  598;
  Info    272    1   32  260;
  Info    288    1   32  301;
  Info    336    1   32  579;
  Info    408    1   32  250;
  Info    448    1   32  225;
  Info    512    1   32  739;
  Info    576    2   32  338;
  Info    640    2   32  188;
  Info    768    2   32  334;
  Info    896    2   32  287;
  Info   1024    2   32  964;
  Info   1152    3   32  210;
  Info   1280    3   32  164;
  Info   1536    3   32  204;
  Info   2048    4   32  530;
  Info   2304    4   28  191;
  Info   2688    4   24  181;
  Info   3200    4   20  166;
  Info   4096    4   16  624;
  Info   4736    5   13  213;
  Info   6144    3   10  168;
  Info   7168    7    9  169;
  Info   8192    4    8  236
].

Definition kSizeClassesList : list SizeClassInfo :=
  array_init kCount initializer.

End Aligned8_Shift12.

(** [the #else branch of the aligned-new test], [TCMALLOC_PAGE_SHIFT == 13]. *)
Module Default_Shift13.

Definition kMaxSize : Z := 262144.
Definition kCount : nat := 85.

(*        bytes pages batch   cap *)
Definition initializer : list SizeClassInfo := [
  Info      0    0    0    0;
  Info      8    1   32 2369;
  Info     16    1   32 2369;
  Info     32    1   32 2369;
  Info     64    1   32 2369;
  Info     80    1   32 2369;
  Info     96    1   32 1596;
  Info    112    1   32  911;
  Info    128    1   32 1035;
  Info    144    1   32  699;
  Info    160    1   32  586;
  Info    176    1   32  333;
  Info    192    1   32  418;
  Info    208    1   32  296;
  Info    224    1   32  264;
  Info    240    1   32  251;
  Info    256    1   32  507;
  Info    272    1   32  231;
  Info    288    1   32  264;
  Info    304    1   32  205;
  Info    320    1   32  250;
  Info    336    1   32  269;
  Info    352    1   32  193;
  Info    368    1   32  173;
  Info    384    1   32  209;
  Info    400    1   32  190;
  Info    416    1   32  187;
  Info    448    1   32  236;
  Info    480    1   32  198;
  Info    512    1   32  356;
  Info    576    1   32  241;
  Info    640    1   32  213;
  Info    704    1   32  193;
  Info    768    1   32  191;
  Info    896    1   32  205;
  Info   1024    1   32  332;
  Info   1152    2   32  197;
  Info   1280    2   32  180;
  Info   1408    2   32  172;
  Info   1536    2   32  178;
  Info   1792    2   32  175;
  Info   2048    2   32  204;
  Info   2304    2   28  171;
  Info   2688    2   24  165;
  Info   2816    3   23  154;
  Info   3200    2   20  160;
  Info   3456    3   18  153;
  Info   3584    4   18  152;
  Info   4096    1   16  312;
  Info   4736    3   13  158;
  Info   5376    2   12  153;
  Info   6144    3   10  158;
  Info   6528    4   10  150;
  Info   7168    7    9  152;
  Info   8192    1    8  207;
  Info   9472    5    6  154;
  Info  10240    4    6  150;
  Info  12288    3    5  154;
  Info  13568    5    4  150;
  Info  14336    7    4  149;
  Info  16384    2    4  160;
  Info  20480    5    3  153;
  Info  24576    3    2  152;
  Info  28672    7    2  152;
  Info  32768    4    2  161;
  Info  40960    5    2  150;
  Info  49152    6    2  149;
  Info  57344    7    2  149;
  Info  65536    8    2  153;
  Info  73728    9    2  150;
  Info  81920   10    2  149;
  Info  90112   11    2  148;
  Info  98304   12    2  149;
  Info 106496   13    2  148;
  Info 114688   14    2  148;
  Info 131072   16    2  149;
  Info 139264   17    2  149;
  Info 147456   18    2  148;
  Info 155648   19    2  148;
  Info 172032   21    2  148;
  Info 188416   23    2  148;
  Info 204800   25    2  148;
  Info 221184   27    2  148;
  Info 237568   29    2  146;
  Info 262144   32    2  148
].

Definition kSizeClassesList : list SizeClassInfo :=
  array_init kCount initializer.

End Default_Shift13.

(** [the #else branch of the aligned-new test], [TCMALLOC_PAGE_SHIFT == 15]. *)
Module Default_Shift15.

Definition kMaxSize : Z := 262144.
Definition kCount : nat := 77.

(*        bytes pages batch   cap *)
Definition initializer : list SizeClassInfo := [
  Info      0    0    0    0;
  Info      8    1   32 2249;
  Info     16    1   32 2249;
  Info     32    1   32 2249;
  Info     64    1   32 2249;
  Info     80    1   32 2249;
  Info     96    1   32 2100;
  Info    112    1   32 1138;
  Info    128    1   32 1563;
  Info    144    1   32  739;
  Info    160    1   32  615;
  Info    176    1   32  402;
  Info    192    1   32  509;
  Info    208    1   32  279;
  Info    224    1   32  359;
  Info    240    1   32  355;
  Info    256    1   32  666;
  Info    288    1   32  382;
  Info    304    1   32  234;
  Info    320    1   32  208;
  Info    352    1   32  355;
  Info    384    1   32  244;
  Info    400    1   32  176;
  Info    448    1   32  246;
  Info    480    1   32  254;
  Info    512    1   32  304;
  Info    576    1   32  234;
  Info    640    1   32  269;
  Info    704    1   32  222;
  Info    768    1   32  204;
  Info    832    1   32  208;
  Info    896    1   32  182;
  Info   1024    1   32  328;
  Info   1152    1   32  203;
  Info   1280    1   32  186;
  Info   1408    1   32  186;
  Info   1536    1   32  178;
  Info   1792    1   32  174;
  Info   1920    1   32  149;
  Info   2048    1   32  183;
  Info   2176    1   30  177;
  Info   2304    1   28  153;
  Info   2432    1   26  150;
  Info   2688    1   24  160;
  Info   2944    1   22  149;
  Info   3200    1   20  153;
  Info   3584    1   18  150;
  Info   4096    1   16  297;
  Info   4608    1   14  157;
  Info   5376    1   12  152;
  Info   6528    1   10  163;
  Info   7168    2    9  143;
  Info   8192    1    8  177;
  Info   9344    2    7  150;
  Info  10880    1    6  145;
  Info  13056    2    5  146;
  Info  13952    3    4  142;
  Info  16384    1    4  165;
  Info  19072    3    3  148;
  Info  21760    2    3  143;
  Info  24576    3    2  143;
  Info  26112    4    2  142;
  Info  28672    7    2  145;
  Info  32768    1    2  157;
  Info  38144    5    2  143;
  Info  40960    4    2  141;
  Info  49152    3    2  142;
  Info  57344    7    2  143;
  Info  65536    2    2  147;
  Info  81920    5    2  144;
  Info  98304    3    2  142;
  Info 114688    7    2  141;
  Info 131072    4    2  161;
  Info 163840    5    2  141;
  Info 196608    6    2  142;
  Info 229376    7    2  136;
  Info 262144    8    2  143
].

Definition kSizeClassesList : list SizeClassInfo :=
  array_init kCount initializer.

End Default_Shift15.

(** [the #else branch of the aligned-new test], [TCMALLOC_PAGE_SHIFT == 18]. *)
Module Default_Shift18.

Definition kMaxSize : Z := 262144.
Definition kCount : nat := 88.

(*        bytes pages batch   cap *)
Definition initializer : list SizeClassInfo := [
  Info      0    0    0    0;
  Info      8    1   32 2368;
  Info     16    1   32 2368;
  Info     32    1   32 2368;
  Info     64    1   32 2371;
  Info     80    1   32 2368;
  Info     96    1   32 1006;
  Info    112    1   32  834;
  Info    128    1   32  871;
  Info    144    1   32  733;
  Info    160    1   32  633;
  Info    176    1   32  302;
  Info    192    1   32  347;
  Info    208    1   32  268;
  Info    224    1   32  466;
  Info    256    1   32  584;
  Info    288    1   32  446;
  Info    320    1   32  342;
  Info    336    1   32  321;
  Info    368    1   32  199;
  Info    400    1   32  257;
  Info    448    1   32  259;
  Info    480    1   32  188;
  Info    512    1   32  275;
  Info    576    1   32  246;
  Info    640    1   32  235;
  Info    704    1   32  197;
  Info    768    1   32  190;
  Info    896    1   32  210;
  Info   1024    1   32  296;
  Info   1152    1   32  198;
  Info   1280    1   32  182;
  Info   1408    1   32  168;
  Info   1536    1   32  168;
  Info   1664    1   32  221;
  Info   1920    1   32  209;
  Info   2048    1   32  191;
  Info   2176    1   30  278;
  Info   2304    1   28  171;
  Info   2560    1   25  165;
  Info   2816    1   23  155;
  Info   3072    1   21  155;
  Info   3328    1   19  167;
  Info   3584    1   18  153;
  Info   3840    1   17  153;
  Info   4096    1   16  251;
  Info   4224    1   15  156;
  Info   4736    1   13  160;
  Info   5120    1   12  158;
  Info   5632    1   11  160;
  Info   6144    1   10  153;
  Info   6528    1   10  154;
  Info   7168    1    9  150;
  Info   8192    1    8  180;
  Info   8704    1    7  150;
  Info   9344    1    7  153;
  Info  10368    1    6  151;
  Info  11392    1    5  154;
  Info  12416    1    5  153;
  Info  13056    1    5  150;
  Info  13696    1    4  149;
  Info  14464    1    4  149;
  Info  15360    1    4  149;
  Info  16384    1    4  161;
  Info  17408    1    3  150;
  Info  18688    1    3  151;
  Info  20096    1    3  149;
  Info  21760    1    3  149;
  Info  23808    1    2  151;
  Info  26112    1    2  150;
  Info  29056    1    2  149;
  Info  32768    1    2  182;
  Info  37376    1    2  150;
  Info  43648    1    2  149;
  Info  45568    2    2  148;
  Info  52352    1    2  149;
  Info  56064    2    2  148;
  Info  65536    1    2  150;
  Info  74880    2    2  148;
  Info  87296    1    2  148;
  Info 104832    2    2  148;
  Info 112256    3    2  148;
  Info 131072    1    2  148;
  Info 149760    3    2  148;
  Info 174720    2    2  148;
  Info 196608    3    2  148;
  Info 209664    4    2  148;
  Info 262144    1    2  150
].

Definition kSizeClassesList : list SizeClassInfo :=
  array_init kCount initializer.

End Default_Shift18.

(** [the #else branch of the aligned-new test], [TCMALLOC_PAGE_SHIFT == 12]. *)
Module Default_Shift12.

Definition kMaxSize : Z := 8192.
Definition kCount : nat := 45.

(*        bytes pages batch   cap *)
Definition initializer : list SizeClassInfo := [
  Info      0    0    0    0;
  Info      8    1   32 2906;
  Info     16    1   32 2906;
  Info     32    1   32 2910;
  Info     64    1   32 2906;
  Info     80    1   32 2906;
  Info     96    1   32 1880;
  Info    112    1   32 1490;
  Info    128    1   32 1411;
  Info    144    1   32 1144;
  Info    160    1   32 1037;
  Info    176    1   32  525;
  Info    192    1   32  563;
  Info    208    1   32  380;
  Info    224    1   32  512;
  Info    240    1   32  316;
  Info    256    1   32  553;
  Info    272    1   32  267;
  Info    288    1   32  301;
  Info    304    1   32  261;
  Info    336    1   32  457;
  Info    368    1   32  226;
  Info    400    1   32  207;
  Info    448    1   32  241;
  Info    512    1   32  673;
  Info    576    2   32  333;
  Info    640    2   32  206;
  Info    768    2   32  329;
  Info    896    2   32  290;
  Info   1024    2   32  864;
  Info   1152    3   32  224;
  Info   1280    3   32  184;
  Info   1536    3   32  219;
  Info   1792    4   32  193;
  Info   2048    4   32  483;
  Info   2304    4   28  207;
  Info   2688    4   24  199;
  Info   3200    4   20  187;
  Info   3584    7   18  184;
  Info   4096    4   16  570;
  Info   4736    5   13  226;
  Info   5376    4   12  182;
  Info   6144    3   10  186;
  Info   7168    7    9  190;
  Info   8192    4    8  246
].

Definition kSizeClassesList : list SizeClassInfo :=
  array_init kCount initializer.

End Default_Shift12.
(** ** Configurations

    A configuration is one branch of the two nested preprocessor tests. *)

(** The outer test: [Aligned8] is the branch taken when
    [defined(__cpp_aligned_new) && __STDCPP_DEFAULT_NEW_ALIGNMENT__ <= 8],
    [DefaultNew] its [#else]. *)
Inductive NewAlignment : Set := Aligned8 | DefaultNew.

(** The inner test, in the order of the [#if]/[#elif] chain. *)
Inductive PageShift : Set := Shift13 | Shift15 | Shift18 | Shift12.

Record Config : Set := {
  new_alignment : NewAlignment;
  shift : PageShift
}.

Definition TCMALLOC_PAGE_SHIFT (cfg : Config) : Z :=
  match shift cfg with
  | Shift13 => 13
  | Shift15 => 15
  | Shift18 => 18
  | Shift12 => 12
  end.

(** The branch the preprocessor selects; [None] is
    [#error "Unsupported TCMALLOC_PAGE_SHIFT value!"]. *)
Definition select_branch (aligned_new_le8 : bool) (page_shift : Z) : option Config :=
  let a := if aligned_new_le8 then Aligned8 else DefaultNew in
  if page_shift =? 13 then Some {| new_alignment := a; shift := Shift13 |}
  else if page_shift =? 15 then Some {| new_alignment := a; shift := Shift15 |}
  else if page_shift =? 18 then Some {| new_alignment := a; shift := Shift18 |}
  else if page_shift =? 12 then Some {| new_alignment := a; shift := Shift12 |}
  else None.

Definition all_configs : list Config :=
  [ {| new_alignment := Aligned8; shift := Shift13 |};
    {| new_alignment := Aligned8; shift := Shift15 |};
    {| new_alignment := Aligned8; shift := Shift18 |};
    {| new_alignment := Aligned8; shift := Shift12 |};
    {| new_alignment := DefaultNew; shift := Shift13 |};
    {| new_alignment := DefaultNew; shift := Shift15 |};
    {| new_alignment := DefaultNew; shift := Shift18 |};
    {| new_alignment := DefaultNew; shift := Shift12 |} ].

(** The value each branch's [static_assert(kMaxSize == ..., "kMaxSize mismatch")]
    pins. *)
Definition kMaxSize (cfg : Config) : Z :=
  match new_alignment cfg, shift cfg with
  | Aligned8, Shift13 => Aligned8_Shift13.kMaxSize
  | Aligned8, Shift15 => Aligned8_Shift15.kMaxSize
  | Aligned8, Shift18 => Aligned8_Shift18.kMaxSize
  | Aligned8, Shift12 => Aligned8_Shift12.kMaxSize
  | DefaultNew, Shift13 => Default_Shift13.kMaxSize
  | DefaultNew, Shift15 => Default_Shift15.kMaxSize
  | DefaultNew, Shift18 => Default_Shift18.kMaxSize
  | DefaultNew, Shift12 => Default_Shift12.kMaxSize
  end.

Definition kCount (cfg : Config) : nat :=
  match new_alignment cfg, shift cfg with
  | Aligned8, Shift13 => Aligned8_Shift13.kCount
  | Aligned8, Shift15 => Aligned8_Shift15.kCount
  | Aligned8, Shift18 => Aligned8_Shift18.kCount
  | Aligned8, Shift12 => Aligned8_Shift12.kCount
  | DefaultNew, Shift13 => Default_Shift13.kCount
  | DefaultNew, Shift15 => Default_Shift15.kCount
  | DefaultNew, Shift18 => Default_Shift18.kCount
  | DefaultNew, Shift12 => Default_Shift12.kCount
  end.

Definition initializer (cfg : Config) : list SizeClassInfo :=
  match new_alignment cfg, shift cfg with
  | Aligned8, Shift13 => Aligned8_Shift13.initializer
  | Aligned8, Shift15 => Aligned8_Shift15.initializer
  | Aligned8, Shift18 => Aligned8_Shift18.initializer
  | Aligned8, Shift12 => Aligned8_Shift12.initializer
  | DefaultNew, Shift13 => Default_Shift13.initializer
  | DefaultNew, Shift15 => Default_Shift15.initializer
  | DefaultNew, Shift18 => Default_Shift18.initializer
  | DefaultNew, Shift12 => Default_Shift12.initializer
  end.

Definition kSizeClassesList (cfg : Config) : list SizeClassInfo :=
  match new_alignment cfg, shift cfg with
  | Aligned8, Shift13 => Aligned8_Shift13.kSizeClassesList
  | Aligned8, Shift15 => Aligned8_Shift15.kSizeClassesList
  | Aligned8, Shift18 => Aligned8_Shift18.kSizeClassesList
  | Aligned8, Shift12 => Aligned8_Shift12.kSizeClassesList
  | DefaultNew, Shift13 => Default_Shift13.kSizeClassesList
  | DefaultNew, Shift15 => Default_Shift15.kSizeClassesList
  | DefaultNew, Shift18 => Default_Shift18.kSizeClassesList
  | DefaultNew, Shift12 => Default_Shift12.kSizeClassesList
  end.

(** [constexpr absl::Span<const SizeClassInfo> kSizeClasses(kSizeClassesList)]:
    the span views the whole array. *)
Definition kSizeClasses (cfg : Config) : list SizeClassInfo :=
  kSizeClassesList cfg.

(** Class [i] of a configuration; [None] past the end of the span. *)
Definition class_at (cfg : Config) (i : nat) : option SizeClassInfo :=
  nth_error (kSizeClasses cfg) i.

(** The classes with index [>= 1]: everything after class 0. *)
Definition classes (cfg : Config) : list SizeClassInfo :=
  tl (kSizeClasses cfg).

(** ** Quantities derived from a row *)

(** Modelled from the spec: the page size, [kPageSize] of
    [tcmalloc/common.h], is not part of the sources.  It is
    [1 << TCMALLOC_PAGE_SHIFT]: 8192 bytes for a shift of 13, the
    "single 8KiB page" of the comment that heads the tables. *)
Definition kPageSize (cfg : Config) : Z :=
  Z.shiftl 1 (TCMALLOC_PAGE_SHIFT cfg).

(** Bytes of a span of the class. *)
Definition span_bytes (cfg : Config) (c : SizeClassInfo) : Z :=
  pages c * kPageSize cfg.

(** Modelled from the spec: [objects_per_span] is not stored; it is
    [floor(pages_per_span * page_size / size_bytes)], the [objs] column of
    the comments.  For the row of class 0, whose [bytes] is 0, the quotient
    is 0, as that column has it. *)
Definition objects_per_span (cfg : Config) (c : SizeClassInfo) : Z :=
  span_bytes cfg c / bytes c.

(** Modelled from the spec: [growth_pct], the [inc] column of the comments,
    is the relative size increase over the preceding class,
    [(size_bytes[i] - size_bytes[i-1]) / size_bytes[i-1]], as a fraction
    (1 is 100%). *)
Definition growth_pct (prev cur : SizeClassInfo) : Q :=
  (inject_Z (bytes cur - bytes prev) / inject_Z (bytes prev))%Q.

(** Modelled from the spec: the alignment of the two modes of the outer
    test, "<=8-byte vs >8-byte/aligned-new ABI".  The first branch is
    compiled when the default alignment of [operator new] is at most 8
    bytes; the other when it is larger, that is 16 bytes on the supported
    platforms. *)
Definition default_new_alignment (a : NewAlignment) : Z :=
  match a with
  | Aligned8 => 8
  | DefaultNew => 16
  end.

(** ** Checks over lists *)

Section Checks.

Context {A : Type}.

(** Every pair of neighbours satisfies [r]. *)
Fixpoint chain (r : A -> A -> bool) (l : list A) : bool :=
  match l with
  | x :: (y :: _) as t => r x y && chain r t
  | _ => true
  end.

End Checks.

(** Linear search for the first row able to hold [s] bytes, numbering the
    head of the list [i]. *)
Fixpoint first_fit (s : Z) (l : list SizeClassInfo) (i : nat) : option nat :=
  match l with
  | [] => None
  | c :: t => if s <=? bytes c then Some i else first_fit s t (S i)
  end.

(** The class a request of [s] bytes rounds up to: the search starts at
    class 1, class 0 is never allocated from. *)
Definition round_up_class (cfg : Config) (s : Z) : option nat :=
  first_fit s (classes cfg) 1.

(** [i] is the smallest class index [>= 1] whose size holds [s] bytes. *)
Definition smallest_class_for (cfg : Config) (s : Z) (i : nat) : Prop :=
  (1 <= i)%nat /\
  (exists c, class_at cfg i = Some c /\ s <= bytes c) /\
  (forall j c, (1 <= j < i)%nat -> class_at cfg j = Some c -> bytes c < s).

(** ** Named configurations *)

Definition aligned8_shift13 : Config :=
  {| new_alignment := Aligned8; shift := Shift13 |}.

Definition default_shift13 : Config :=
  {| new_alignment := DefaultNew; shift := Shift13 |}.

(** ** Further quantities the invariants speak of *)

(** The size of the last class of a configuration. *)
Definition last_size (cfg : Config) : option Z :=
  option_map bytes (class_at cfg (kCount cfg - 1)).

(** The batches of the tables follow one rule: as many objects as make
    64 KiB, but no fewer than 2 and no more than 32. *)
Definition batch_rule (size : Z) : Z :=
  Z.max 2 (Z.min 32 (65536 / size)).

(** The rows whose size has to be a multiple of the mode's alignment:
    all the classes [>= 1] in the 8-byte mode, the classes [>= 2] in the
    other. *)
Definition aligned_classes (cfg : Config) : list SizeClassInfo :=
  match new_alignment cfg with
  | Aligned8 => classes cfg
  | DefaultNew => tl (classes cfg)
  end.

(** ** The invariants as boolean checks of a table *)

(** The fields are unsigned 32-bit integers. *)
Definition fields_fit_uint32 (cfg : Config) : bool :=
  forallb (fun c => forallb (fun v => (0 <=? v) && (v <? 2 ^ 32))
                            [bytes c; pages c; batch c; cap c])
          (kSizeClasses cfg).

(** The array starts with the row [{0, 0, 0, 0}]. *)
Definition sentinel_first (cfg : Config) : bool :=
  match kSizeClasses cfg with
  | c0 :: _ => SizeClassInfo_eqb c0 zero_info
  | [] => false
  end.

(** Each class [>= 1] is larger than the one before. *)
Definition sizes_increase (cfg : Config) : bool :=
  chain (fun p c => bytes p <? bytes c) (classes cfg).

(** Some class [>= 1] has [kMaxSize] bytes. *)
Definition has_max_class (cfg : Config) : bool :=
  existsb (fun c => bytes c =? kMaxSize cfg) (classes cfg).

(** Each class [>= 1] has a positive size that fits in its span. *)
Definition spans_fit (cfg : Config) : bool :=
  forallb (fun c => (0 <? bytes c) && (bytes c <=? span_bytes cfg c))
          (classes cfg).

(** Each class [>= 1] has the batch [batch_rule] gives for its size. *)
Definition batches_follow_rule (cfg : Config) : bool :=
  forallb (fun c => batch c =? batch_rule (bytes c)) (classes cfg).

(** No class [>= 2] has a larger batch than the one before. *)
Definition batches_decrease (cfg : Config) : bool :=
  chain (fun p c => batch c <=? batch p) (classes cfg).

(** Each class [>= 1] is a multiple of 8, and each row of
    [aligned_classes] a multiple of the mode's alignment. *)
Definition sizes_aligned (cfg : Config) : bool :=
  forallb (fun c => bytes c mod 8 =? 0) (classes cfg) &&
  forallb (fun c => bytes c mod default_new_alignment (new_alignment cfg) =? 0)
          (aligned_classes cfg).

(** No class [>= 2] is more than twice the one before. *)
Definition growth_at_most_double (cfg : Config) : bool :=
  chain (fun p c => Qle_bool (growth_pct p c) 1) (classes cfg).

(** ** Fixed overhead of a span

    The comment that heads the tables works the [waste] column out on an
    example: a 96 byte size class on a single 8KiB page holds 85 objects
    per span and has 32 bytes left over; with the fixed component of 48
    bytes of metadata per span, the fixed overhead is wasted/allocated
    [= (32 + 48) / (8192 - 32)]. *)

(** The bytes left over at the end of a span. *)
Definition leftover_bytes (cfg : Config) (c : SizeClassInfo) : Z :=
  span_bytes cfg c - objects_per_span cfg c * bytes c.

(** The fixed component of metadata per span, in bytes. *)
Definition span_metadata_bytes : Z := 48.

(** Wasted over allocated, as a fraction. *)
Definition fixed_waste (cfg : Config) (c : SizeClassInfo) : Q :=
  (inject_Z (leftover_bytes cfg c + span_metadata_bytes) /
   inject_Z (span_bytes cfg c - leftover_bytes cfg c))%Q.

(** ** The documentation of the tables

    Beside its four fields every row carries, in a comment, the columns
    [class], [objs], [waste] and [inc].  [objs_column] is the [objs] column,
    the number of objects per span, as the file prints it. *)
Definition objs_column (cfg : Config) : list Z :=
  match new_alignment cfg, shift cfg with
  | Aligned8, Shift13 =>
    [
      0; 1024; 512; 256; 128; 113; 102; 93; 85; 78; 73; 68;
      64; 60; 56; 51; 46; 42; 39; 36; 34; 32; 31; 29;
      26; 24; 23; 21; 20; 19; 18; 17; 16; 14; 12; 11;
      10; 9; 8; 14; 12; 11; 10; 9; 8; 7; 6; 8;
      5; 7; 9; 2; 5; 3; 4; 8; 1; 4; 3; 2;
      3; 4; 1; 2; 1; 2; 1; 1; 1; 1; 1; 1;
      1; 1; 1; 1; 1; 1; 1; 1; 1; 1 ]
  | Aligned8, Shift15 =>
    [
      0; 4096; 2048; 1024; 512; 455; 409; 372; 341; 315; 292; 273;
      256; 240; 227; 204; 186; 170; 157; 136; 128; 117; 107; 102;
      93; 81; 73; 64; 56; 51; 46; 42; 36; 32; 28; 25;
      23; 21; 18; 17; 16; 15; 14; 12; 10; 9; 8; 7;
      6; 5; 4; 7; 3; 5; 7; 2; 5; 3; 4; 8;
      1; 4; 3; 2; 4; 1; 2; 1; 2; 1; 1; 1;
      1; 1 ]
  | Aligned8, Shift18 =>
    [
      0; 32768; 16384; 8192; 4096; 3640; 3276; 2978; 2730; 2520; 2340; 2048;
      1820; 1638; 1489; 1365; 1260; 1129; 1024; 936; 840; 780; 697; 630;
      555; 512; 455; 372; 341; 292; 256; 227; 204; 186; 157; 136;
      128; 120; 113; 102; 93; 85; 78; 73; 68; 64; 62; 55;
      49; 45; 40; 36; 32; 28; 24; 22; 20; 19; 18; 17;
      16; 15; 14; 13; 12; 11; 10; 9; 8; 7; 6; 11;
      5; 9; 4; 7; 3; 5; 7; 2; 5; 3; 4; 5;
      1 ]
  | Aligned8, Shift12 =>
    [
      0; 512; 256; 128; 64; 56; 51; 42; 39; 36; 32; 28;
      25; 23; 21; 19; 18; 17; 16; 15; 14; 12; 10; 9;
      8; 14; 12; 10; 9; 8; 10; 9; 8; 8; 7; 6;
      5; 4; 4; 2; 4; 2 ]
  | DefaultNew, Shift13 =>
    [
      0; 1024; 512; 256; 128; 102; 85; 73; 64; 56; 51; 46;
      42; 39; 36; 34; 32; 30; 28; 26; 25; 24; 23; 22;
      21; 20; 19; 18; 17; 16; 14; 12; 11; 10; 9; 8;
      14; 12; 11; 10; 9; 8; 7; 6; 8; 5; 7; 9;
      2; 5; 3; 4; 5; 8; 1; 4; 3; 2; 3; 4;
      1; 2; 1; 2; 1; 1; 1; 1; 1; 1; 1; 1;
      1; 1; 1; 1; 1; 1; 1; 1; 1; 1; 1; 1;
      1 ]
  | DefaultNew, Shift15 =>
    [
      0; 4096; 2048; 1024; 512; 409; 341; 292; 256; 227; 204; 186;
      170; 157; 146; 136; 128; 113; 107; 102; 93; 85; 81; 73;
      68; 64; 56; 51; 46; 42; 39; 36; 32; 28; 25; 23;
      21; 18; 17; 16; 15; 14; 13; 12; 11; 10; 9; 8;
      7; 6; 5; 9; 4; 7; 3; 5; 7; 2; 5; 3;
      4; 5; 8; 1; 4; 3; 2; 4; 1; 2; 1; 2;
      1; 1; 1; 1; 1 ]
  | DefaultNew, Shift18 =>
    [
      0; 32768; 16384; 8192; 4096; 3276; 2730; 2340; 2048; 1820; 1638; 1489;
      1365; 1260; 1170; 1024; 910; 819; 780; 712; 655; 585; 546; 512;
      455; 409; 372; 341; 292; 256; 227; 204; 186; 170; 157; 136;
      128; 120; 113; 102; 93; 85; 78; 73; 68; 64; 62; 55;
      51; 46; 42; 40; 36; 32; 30; 28; 25; 23; 21; 20;
      19; 18; 17; 16; 15; 14; 13; 12; 11; 10; 9; 8;
      7; 6; 11; 5; 9; 4; 7; 3; 5; 7; 2; 5;
      3; 4; 5; 1 ]
  | DefaultNew, Shift12 =>
    [
      0; 512; 256; 128; 64; 51; 42; 36; 32; 28; 25; 23;
      21; 19; 18; 17; 16; 15; 14; 13; 12; 11; 10; 9;
      8; 14; 12; 10; 9; 8; 10; 9; 8; 9; 8; 7;
      6; 5; 8; 4; 4; 3; 2; 4; 2 ]
  end.
(** ** Further checks of a table *)

(** The exponents [k] of the powers of two from 8 to [2^18 = 262144]. *)
Definition exponents : list Z := map Z.of_nat (seq 3 16).

(** Each power of two from 8 up to [kMaxSize] is the size of a class. *)
Definition powers_of_two_present (cfg : Config) : bool :=
  forallb (fun k => (kMaxSize cfg <? 2 ^ k) ||
                    existsb (fun c => bytes c =? 2 ^ k) (classes cfg))
          exponents.

(** Each class of more than 1024 bytes is a multiple of 128. *)
Definition large_sizes_by_128 (cfg : Config) : bool :=
  forallb (fun c => (bytes c <=? 1024) || (bytes c mod 128 =? 0)) (classes cfg).

(** The capacity of each class [>= 1] holds a batch, and a batch is not
    empty. *)
Definition caps_hold_batch (cfg : Config) : bool :=
  forallb (fun c => (0 <? batch c) && (batch c <=? cap c)) (classes cfg).

(** Each class [>= 1] wastes less than a tenth. *)
Definition waste_below_tenth (cfg : Config) : bool :=
  forallb (fun c => negb (Qle_bool (1 # 10) (fixed_waste cfg c))) (classes cfg).

(** Class 1 has 8 bytes and class 4 has 64. *)
Definition small_classes (cfg : Config) : bool :=
  match option_map bytes (nth_error (classes cfg) 0),
        option_map bytes (nth_error (classes cfg) 3) with
  | Some b1, Some b4 => (b1 =? 8) && (b4 =? 64)
  | _, _ => false
  end.

(** No class [>= 2] is more than twice the one before, in integers. *)
Definition steps_at_most_double (cfg : Config) : bool :=
  chain (fun p c => bytes c <=? 2 * bytes p) (classes cfg).

(** No class [>= 5] is more than four thirds of the one before. *)
Definition steps_at_most_third (cfg : Config) : bool :=
  chain (fun p c => 3 * bytes c <=? 4 * bytes p) (skipn 3 (classes cfg)).

(** Rows of the same size in the two tables of a page shift have the same
    pages and the same batch. *)
Definition same_geometry (s : PageShift) : bool :=
  forallb (fun c =>
    forallb (fun c' => negb (bytes c =? bytes c') ||
                       ((pages c =? pages c') && (batch c =? batch c')))
            (kSizeClasses {| new_alignment := DefaultNew; shift := s |}))
          (kSizeClasses {| new_alignment := Aligned8; shift := s |}).

(** ** The validation of a table

    The sources hold the tables only; the code that validates them is not
    part of them.  The definitions of this section follow the
    specification of the ClassTableValidator: it walks a table once,
    re-derives the derived quantities of every class from the stored
    fields, and names the first offending class index.  Class 0 "is
    excluded from monotonicity checks but still counted toward
    max_classes". *)

(** Modelled from the spec: the checks of the derived quantities of one
    class, "[objects_per_span >= 1]" and "[fixed_waste_pct] stays below a
    configuration-wide ceiling".  Both quantities divide by the size of
    the class, so a class of size 0 does not pass. *)
Definition derived_ok (cfg : Config) (waste_ceiling : Q) (c : SizeClassInfo) : bool :=
  (0 <? bytes c) &&
  (1 <=? objects_per_span cfg c) &&
  negb (Qle_bool waste_ceiling (fixed_waste cfg c)).

(** Modelled from the spec: the checks of a class against the class
    before it, "[size_bytes] strictly increasing" and "[growth_pct] for
    class i stays below a configuration-wide ceiling relative to class
    i-1". *)
Definition step_ok (growth_ceiling : Q) (p c : SizeClassInfo) : bool :=
  (bytes p <? bytes c) &&
  negb (Qle_bool growth_ceiling (growth_pct p c)).

(** Modelled from the spec: one walk over rows numbered from [i], that
    returns "the first offending class index"; [prev] is the row before
    the head, when the walk has one to compare with. *)
Fixpoint first_offender
    (row_ok : SizeClassInfo -> bool)
    (pair_ok : SizeClassInfo -> SizeClassInfo -> bool)
    (prev : option SizeClassInfo) (l : list SizeClassInfo) (i : nat)
    : option nat :=
  match l with
  | [] => None
  | c :: t =>
      if row_ok c && match prev with
                     | Some p => pair_ok p c
                     | None => true
                     end
      then first_offender row_ok pair_ok (Some c) t (S i)
      else Some i
  end.

(** Modelled from the spec: the monotonicity and derived-quantity checks
    of a table.  The walk starts at class 1: class 0 is excluded, and
    class 1 has no class before it to be compared with. *)
Definition validate_classes
    (cfg : Config) (waste_ceiling growth_ceiling : Q)
    (table : list SizeClassInfo) : option nat :=
  match table with
  | [] => None
  | _ :: rest =>
      first_offender (derived_ok cfg waste_ceiling) (step_ok growth_ceiling)
                     None rest 1
  end.




(** * Facts about the checks *)

Section CheckFacts.

Context {A : Type}.

Lemma nth_error_tl (l : list A) (i : nat) :
  nth_error (tl l) i = nth_error l (S i).
Proof.
  destruct l as [|a l]; simpl; [destruct i|]; reflexivity.
Qed.

Lemma forallb_nth_error (p : A -> bool) (l : list A) (i : nat) (x : A) :
  forallb p l = true -> nth_error l i = Some x -> p x = true.
Proof.
  intros Hall Hnth.
  rewrite forallb_forall in Hall.
  apply Hall, (nth_error_In _ _ Hnth).
Qed.

Lemma chain_neighbours (r : A -> A -> bool) (l : list A) :
  chain r l = true ->
  forall i x y,
    nth_error l i = Some x -> nth_error l (S i) = Some y -> r x y = true.
Proof.
  induction l as [|a t IH]; intros Hc i x y Hx Hy.
  - destruct i; discriminate Hx.
  - destruct t as [|b t'].
    + destruct i; discriminate Hy.
    + simpl in Hc. apply andb_prop in Hc. destruct Hc as [Hab Ht].
      destruct i as [|i'].
      * simpl in Hx, Hy. injection Hx as <-. injection Hy as <-. exact Hab.
      * apply (IH Ht i'); assumption.
Qed.

Lemma chain_ordered (r : A -> A -> bool) (l : list A) :
  (forall x y z, r x y = true -> r y z = true -> r x z = true) ->
  chain r l = true ->
  forall j i x y, (i < j)%nat ->
    nth_error l i = Some x -> nth_error l j = Some y -> r x y = true.
Proof.
  intros Htrans Hc.
  induction j as [|j IH]; intros i x y Hij Hx Hy; [lia|].
  destruct (Nat.eq_dec i j) as [->|Hne].
  - exact (chain_neighbours r l Hc j x y Hx Hy).
  - assert (Hj : (j < length l)%nat).
    { apply Nat.lt_succ_l, nth_error_Some. rewrite Hy. discriminate. }
    apply nth_error_Some in Hj.
    destruct (nth_error l j) as [z|] eqn:Hz; [|contradiction].
    apply (Htrans x z y).
    + apply (IH i x z); [lia | assumption | reflexivity].
    + exact (chain_neighbours r l Hc j z y Hz Hy).
Qed.

End CheckFacts.

(** A class with index [>= 1] is an element of [classes]. *)
Lemma class_at_classes (cfg : Config) (i : nat) :
  class_at cfg (S i) = nth_error (classes cfg) i.
Proof.
  unfold class_at, classes. symmetry. apply nth_error_tl.
Qed.

(** The eight tables are closed terms: a boolean check over them is settled
    by evaluation, branch by branch. *)
Ltac by_tables cfg :=
  destruct cfg as [[] []]; vm_compute; reflexivity.

(** No initialiser list is longer than its array, and none is shorter: the
    arrays hold exactly the rows that are written. *)
Lemma initializer_exact (cfg : Config) :
  initializer_fits (kCount cfg) (initializer cfg) = true /\
  length (initializer cfg) = kCount cfg /\
  kSizeClassesList cfg = initializer cfg.
Proof.
  repeat split; by_tables cfg.
Qed.


(** Every field of every row is in the range of its 32-bit type: the
    integers of the model are the values of the program. *)
Lemma fields_fit_uint32_ok (cfg : Config) : fields_fit_uint32 cfg = true.
Proof. by_tables cfg. Qed.

Lemma class_fields_in_range (cfg : Config) (i : nat) (c : SizeClassInfo) :
  class_at cfg i = Some c ->
  0 <= bytes c < 2 ^ 32 /\ 0 <= pages c < 2 ^ 32 /\
  0 <= batch c < 2 ^ 32 /\ 0 <= cap c < 2 ^ 32.
Proof.
  intros Hc.
  pose proof (forallb_nth_error _ _ _ _ (fields_fit_uint32_ok cfg) Hc) as H.
  cbn [forallb] in H.
  repeat match type of H with
         | (_ && _ = true) => apply andb_prop in H; destruct H as [? H]
         end.
  repeat match goal with
         | E : (_ && _ = true) |- _ => apply andb_prop in E; destruct E
         | E : (_ <=? _) = true |- _ => apply Z.leb_le in E
         | E : (_ <? _) = true |- _ => apply Z.ltb_lt in E
         end.
  lia.
Qed.

(** [select_branch] reaches exactly the eight configurations. *)
Lemma select_branch_supported (le8 : bool) (s : Z) (cfg : Config) :
  select_branch le8 s = Some cfg ->
  TCMALLOC_PAGE_SHIFT cfg = s /\ In cfg all_configs.
Proof.
  unfold select_branch. intros H.
  destruct (s =? 13) eqn:E13; [|destruct (s =? 15) eqn:E15;
    [|destruct (s =? 18) eqn:E18; [|destruct (s =? 12) eqn:E12; [|discriminate H]]]];
  injection H as <-;
  repeat match goal with E : (_ =? _) = true |- _ => apply Z.eqb_eq in E end;
  subst s; destruct le8; (split; [reflexivity | simpl; tauto]).
Qed.

Lemma all_configs_complete (cfg : Config) : In cfg all_configs.
Proof.
  destruct cfg as [[] []]; simpl; tauto.
Qed.

(** * The table of the 8 KiB-page, 8-byte-aligned configuration *)

(** C2.  With [TCMALLOC_PAGE_SHIFT == 13] (pages of 8192 bytes), an
    alignment of at most 8 and [kMaxSize == 262144], the table has exactly
    82 entries, class 0 included; class 1 has 8 bytes and 1 page per span,
    and the last class, of index 81, has 262144 bytes and 32 pages per
    span. *)
Theorem aligned8_shift13_table :
  TCMALLOC_PAGE_SHIFT aligned8_shift13 = 13 /\
  kPageSize aligned8_shift13 = 8192 /\
  default_new_alignment (new_alignment aligned8_shift13) <= 8 /\
  kMaxSize aligned8_shift13 = 262144 /\
  kCount aligned8_shift13 = 82%nat /\
  length (kSizeClasses aligned8_shift13) = 82%nat /\
  class_at aligned8_shift13 0 = Some zero_info /\
  option_map (fun c => (bytes c, pages c)) (class_at aligned8_shift13 1)
    = Some (8, 1) /\
  option_map (fun c => (bytes c, pages c)) (class_at aligned8_shift13 81)
    = Some (262144, 32) /\
  class_at aligned8_shift13 82 = None.
Proof.
  repeat split; try (vm_compute; reflexivity).
  vm_compute. discriminate.
Qed.

(** * Sizes *)

Lemma sizes_increase_ok (cfg : Config) : sizes_increase cfg = true.
Proof. by_tables cfg. Qed.

(** Of two rows of [classes], the later one is the larger. *)
Lemma classes_sizes_ordered (cfg : Config) (i j : nat) (ci cj : SizeClassInfo) :
  (i < j)%nat ->
  nth_error (classes cfg) i = Some ci -> nth_error (classes cfg) j = Some cj ->
  bytes ci < bytes cj.
Proof.
  intros Hij Hci Hcj.
  apply Z.ltb_lt.
  apply (chain_ordered (fun p c => bytes p <? bytes c) (classes cfg))
    with (i := i) (j := j); try assumption; [|apply sizes_increase_ok].
  intros x y z Hxy Hyz. apply Z.ltb_lt in Hxy, Hyz. apply Z.ltb_lt. lia.
Qed.

(** C3.  In every configuration the sizes of the classes with index
    [>= 1] are strictly increasing: of two such classes the one with the
    larger index has the larger [bytes].  Class 0 is not part of the
    requirement. *)
Theorem size_bytes_strictly_increasing
    (cfg : Config) (i j : nat) (ci cj : SizeClassInfo) :
  (1 <= i)%nat -> (i < j)%nat ->
  class_at cfg i = Some ci -> class_at cfg j = Some cj ->
  bytes ci < bytes cj.
Proof.
  intros Hi Hij Hci Hcj.
  destruct i as [|i']; [lia|].
  destruct j as [|j']; [lia|].
  rewrite class_at_classes in Hci, Hcj.
  apply (classes_sizes_ordered cfg i' j'); [lia | assumption | assumption].
Qed.

Lemma size_bytes_strictly_increasing_witness :
  bytes (Info 64 1 32 2024) < bytes (Info 72 1 32 1275).
Proof.
  apply (size_bytes_strictly_increasing aligned8_shift13 4 5);
    [lia | lia | reflexivity | reflexivity].
Defined.

Lemma last_size_kMaxSize (cfg : Config) : last_size cfg = Some (kMaxSize cfg).
Proof. by_tables cfg. Qed.

(** C4.  In every configuration the last class has exactly [kMaxSize]
    bytes: 262144 for the page shifts 13, 15 and 18, and 8192 for the page
    shift 12.  Configurations with the same [kMaxSize] therefore end on the
    same size. *)
Theorem last_class_is_kMaxSize (cfg : Config) :
  last_size cfg = Some (kMaxSize cfg) /\
  class_at cfg (kCount cfg) = None /\
  kMaxSize cfg = match shift cfg with
                 | Shift12 => 8192
                 | Shift13 | Shift15 | Shift18 => 262144
                 end /\
  (forall cfg', kMaxSize cfg' = kMaxSize cfg -> last_size cfg' = last_size cfg).
Proof.
  split; [exact (last_size_kMaxSize cfg)|].
  split; [by_tables cfg|].
  split; [by_tables cfg|].
  intros cfg' Hsame.
  rewrite (last_size_kMaxSize cfg), (last_size_kMaxSize cfg'), Hsame.
  reflexivity.
Qed.

(** * Spans *)

(** A span holds an object exactly when the quotient that counts the
    objects of a span is at least 1. *)
Lemma span_fits_iff (cfg : Config) (c : SizeClassInfo) :
  0 < bytes c ->
  (bytes c <= span_bytes cfg c <-> 1 <= objects_per_span cfg c).
Proof.
  intros Hpos. unfold objects_per_span. split; intros H.
  - apply Z.div_le_lower_bound; lia.
  - pose proof (Z.mul_div_le (span_bytes cfg c) (bytes c) Hpos). nia.
Qed.

Lemma spans_fit_ok (cfg : Config) : spans_fit cfg = true.
Proof. by_tables cfg. Qed.

(** C6.  In every configuration, every class [i >= 1] has a span at least
    as large as one object, [pages * page_size >= bytes]; equivalently its
    number of objects per span, [floor(pages * page_size / bytes)], is at
    least 1. *)
Theorem span_holds_an_object (cfg : Config) (i : nat) (c : SizeClassInfo) :
  (1 <= i)%nat -> class_at cfg i = Some c ->
  bytes c <= pages c * kPageSize cfg /\
  1 <= objects_per_span cfg c /\
  (bytes c <= pages c * kPageSize cfg <-> 1 <= objects_per_span cfg c).
Proof.
  intros Hi Hc.
  destruct i as [|i']; [lia|].
  rewrite class_at_classes in Hc.
  pose proof (forallb_nth_error _ _ _ _ (spans_fit_ok cfg) Hc) as Hchk.
  apply andb_prop in Hchk. destruct Hchk as [Hpos Hfit].
  apply Z.ltb_lt in Hpos. apply Z.leb_le in Hfit.
  pose proof (span_fits_iff cfg c Hpos) as Hiff.
  unfold span_bytes in *.
  repeat split; try tauto.
Qed.

Lemma span_holds_an_object_witness :
  8192 <= 1 * kPageSize aligned8_shift13 /\
  1 <= objects_per_span aligned8_shift13 (Info 8192 1 8 207).
Proof.
  destruct (span_holds_an_object aligned8_shift13 56 (Info 8192 1 8 207))
    as (Hfit & Hobjs & _); [lia | reflexivity |].
  split; [exact Hfit | exact Hobjs].
Defined.

(** * Transfer batches *)

Lemma batches_follow_rule_ok (cfg : Config) : batches_follow_rule cfg = true.
Proof. by_tables cfg. Qed.

Lemma batch_is_batch_rule (cfg : Config) (i : nat) (c : SizeClassInfo) :
  (1 <= i)%nat -> class_at cfg i = Some c -> batch c = batch_rule (bytes c).
Proof.
  intros Hi Hc.
  destruct i as [|i']; [lia|].
  rewrite class_at_classes in Hc.
  apply Z.eqb_eq.
  exact (forallb_nth_error _ _ _ _ (batches_follow_rule_ok cfg) Hc).
Qed.

Lemma batch_rule_range (size : Z) : 2 <= batch_rule size <= 32.
Proof. unfold batch_rule. lia. Qed.

(** C1, as the code has it.  In every configuration the batch of every
    class [i >= 1] is at most 32, hence at most any batch ceiling of 32 or
    more.  (It is not bounded by the number of objects of a span: a class
    of 8192 bytes on one page of 8192 bytes has one object per span and a
    batch of 8.) *)
Theorem transfer_batch_le_ceiling
    (cfg : Config) (batch_ceiling : Z) (i : nat) (c : SizeClassInfo) :
  32 <= batch_ceiling ->
  (1 <= i)%nat -> class_at cfg i = Some c ->
  batch c <= batch_ceiling.
Proof.
  intros Hceil Hi Hc.
  rewrite (batch_is_batch_rule cfg i c Hi Hc).
  pose proof (batch_rule_range (bytes c)). lia.
Qed.

Lemma transfer_batch_le_ceiling_witness :
  32 <= 128 /\ batch (Info 8 1 32 2024) <= 128.
Proof.
  split; [lia|].
  apply (transfer_batch_le_ceiling aligned8_shift13 128 1); [lia | lia | reflexivity].
Defined.

(** A ceiling below 32 is exceeded by class 1 of every configuration. *)
Lemma class_one_batch (cfg : Config) :
  option_map batch (class_at cfg 1) = Some 32.
Proof. by_tables cfg. Qed.

(** C1, as stated, fails: with pages of 8192 bytes, class 56 has 8192
    bytes and one page per span, so one object per span, and a batch of 8.
    No batch ceiling makes the two bounds hold together. *)
Lemma batch_exceeds_objects_per_span :
  ~ (exists batch_ceiling : Z,
       forall i c, (1 <= i)%nat -> class_at aligned8_shift13 i = Some c ->
         batch c <= objects_per_span aligned8_shift13 c /\
         batch c <= batch_ceiling).
Proof.
  intros [ceiling H].
  destruct (H 56%nat (Info 8192 1 8 207)) as [Hobjs _];
    [lia | reflexivity |].
  vm_compute in Hobjs. apply Hobjs. reflexivity.
Qed.

(** The same happens at the last class of every configuration. *)
Lemma last_class_batch_exceeds_span (cfg : Config) :
  exists c, class_at cfg (kCount cfg - 1) = Some c /\
            objects_per_span cfg c < batch c.
Proof.
  destruct cfg as [[] []];
    (eexists; split; [vm_compute; reflexivity | vm_compute; reflexivity]).
Qed.

Lemma batches_decrease_ok (cfg : Config) : batches_decrease cfg = true.
Proof. by_tables cfg. Qed.

(** C10.  In every configuration the batch never grows from a class
    [i - 1 >= 1] to the next one. *)
Theorem transfer_batch_non_increasing
    (cfg : Config) (i : nat) (p c : SizeClassInfo) :
  (2 <= i)%nat ->
  class_at cfg (i - 1) = Some p -> class_at cfg i = Some c ->
  batch c <= batch p.
Proof.
  intros Hi Hp Hc.
  destruct i as [|[|k]]; try lia.
  replace (S (S k) - 1)%nat with (S k) in Hp by lia.
  rewrite class_at_classes in Hp, Hc.
  apply Z.leb_le.
  exact (chain_neighbours _ _ (batches_decrease_ok cfg) k p c Hp Hc).
Qed.

Lemma transfer_batch_non_increasing_witness :
  batch (Info 2304 2 28 158) <= batch (Info 2048 2 32 202).
Proof.
  apply (transfer_batch_non_increasing aligned8_shift13 45);
    [lia | reflexivity | reflexivity].
Defined.

(** Class 0 has to stay out of this comparison: from its batch of 0 the
    batch grows to 32 at class 1. *)
Lemma batch_grows_from_class_zero (cfg : Config) :
  option_map batch (class_at cfg 0) = Some 0 /\
  option_map batch (class_at cfg 1) = Some 32.
Proof.
  split; by_tables cfg.
Qed.

(** * Alignment of the sizes *)

Lemma sizes_aligned_ok (cfg : Config) : sizes_aligned cfg = true.
Proof. by_tables cfg. Qed.

(** C7, as the code has it.  In every configuration the size of every
    class [i >= 1] is a multiple of 8.  It is also a multiple of the
    alignment of the configuration's mode (8 bytes, or 16 bytes in the
    [#else] branch of the aligned-new test), except for class 1 of the
    16-byte mode. *)
Theorem size_bytes_aligned (cfg : Config) (i : nat) (c : SizeClassInfo) :
  (1 <= i)%nat -> class_at cfg i = Some c ->
  bytes c mod 8 = 0 /\
  (new_alignment cfg = Aligned8 \/ (2 <= i)%nat ->
   bytes c mod default_new_alignment (new_alignment cfg) = 0).
Proof.
  intros Hi Hc.
  destruct i as [|i']; [lia|].
  rewrite class_at_classes in Hc.
  pose proof (sizes_aligned_ok cfg) as Hchk.
  apply andb_prop in Hchk. destruct Hchk as [H8 Hmode].
  split.
  - apply Z.eqb_eq. exact (forallb_nth_error _ _ _ _ H8 Hc).
  - intros Hwhich. apply Z.eqb_eq.
    unfold aligned_classes in Hmode.
    destruct (new_alignment cfg) eqn:Hmodeq.
    + exact (forallb_nth_error _ _ _ _ Hmode Hc).
    + destruct Hwhich as [Habs | Hi2]; [discriminate Habs|].
      destruct i' as [|k]; [lia|].
      rewrite <- nth_error_tl in Hc.
      exact (forallb_nth_error _ _ _ _ Hmode Hc).
Qed.

Lemma size_bytes_aligned_witness :
  bytes (Info 80 1 32 2369) mod 8 = 0 /\
  bytes (Info 80 1 32 2369) mod default_new_alignment DefaultNew = 0.
Proof.
  destruct (size_bytes_aligned default_shift13 5 (Info 80 1 32 2369))
    as [H8 H16]; [lia | reflexivity |].
  split; [exact H8 | apply H16; right; lia].
Defined.

(** C7, as stated, fails: in the 16-byte mode class 1 has 8 bytes, which
    is not a multiple of 16. *)
Lemma class_one_below_alignment :
  ~ (forall i c, (1 <= i)%nat -> class_at default_shift13 i = Some c ->
       bytes c mod default_new_alignment (new_alignment default_shift13) = 0).
Proof.
  intros H.
  specialize (H 1%nat (Info 8 1 32 2369)).
  discriminate H; [lia | reflexivity].
Qed.

(** Whatever alignment above 8 the [#else] branch stands for, class 1 of
    its four tables is not a multiple of it. *)
Lemma class_one_below_any_larger_alignment (s : PageShift) (a : Z) :
  8 < a ->
  exists c, class_at {| new_alignment := DefaultNew; shift := s |} 1 = Some c /\
            bytes c mod a <> 0.
Proof.
  intros Ha.
  destruct s; (eexists; split; [vm_compute; reflexivity|]);
    cbn [bytes]; rewrite Z.mod_small; lia.
Qed.

(** * Growth from one class to the next *)

Lemma growth_at_most_double_ok (cfg : Config) :
  growth_at_most_double cfg = true.
Proof. by_tables cfg. Qed.

(** From one class [>= 1] to the next the size at most doubles. *)
Lemma growth_le_one (cfg : Config) (i : nat) (p c : SizeClassInfo) :
  (2 <= i)%nat ->
  class_at cfg (i - 1) = Some p -> class_at cfg i = Some c ->
  (growth_pct p c <= 1)%Q.
Proof.
  intros Hi Hp Hc.
  destruct i as [|[|k]]; try lia.
  replace (S (S k) - 1)%nat with (S k) in Hp by lia.
  rewrite class_at_classes in Hp, Hc.
  apply Qle_bool_iff.
  exact (chain_neighbours _ _ (growth_at_most_double_ok cfg) k p c Hp Hc).
Qed.

(** The bound is reached: class 2 doubles class 1 in every configuration. *)
Lemma class_two_doubles (cfg : Config) :
  exists p c, class_at cfg 1 = Some p /\ class_at cfg 2 = Some c /\
              (growth_pct p c == 1)%Q.
Proof.
  destruct cfg as [[] []];
    (do 2 eexists; repeat split; vm_compute; reflexivity).
Qed.




(** The ceilings the tables stay below are exactly those above 100%. *)
Lemma growth_ceiling_characterised (cfg : Config) (growth_ceiling : Q) :
  (forall i p c, (2 <= i)%nat ->
     class_at cfg (i - 1) = Some p -> class_at cfg i = Some c ->
     (growth_pct p c < growth_ceiling)%Q)
  <-> (1 < growth_ceiling)%Q.
Proof.
  split.
  - intros Hall.
    destruct (class_two_doubles cfg) as (p & c & Hp & Hc & Hdouble).
    rewrite <- Hdouble. apply (Hall 2%nat p c); [lia | exact Hp | exact Hc].
  - intros Hceil i p c Hi Hp Hc.
    apply Qle_lt_trans with (y := 1%Q); [|exact Hceil].
    exact (growth_le_one cfg i p c Hi Hp Hc).
Qed.

(** The [inc] column of the comments, recomputed for three rows of the
    first table: 100% from 8 to 16 bytes, 12.5% from 64 to 72 and 1/7
    (the column's 14.29%) from 229376 to 262144. *)
Example growth_pct_samples :
  (growth_pct (Info 8 1 32 2024) (Info 16 1 32 2024) == 1)%Q /\
  (growth_pct (Info 64 1 32 2024) (Info 72 1 32 1275) == 1 # 8)%Q /\
  (growth_pct (Info 229376 28 2 127) (Info 262144 32 2 128) == 1 # 7)%Q.
Proof. repeat split. Qed.

(** * Class 0 *)

Lemma SizeClassInfo_eqb_eq (x y : SizeClassInfo) :
  SizeClassInfo_eqb x y = true -> x = y.
Proof.
  destruct x as [b1 p1 n1 c1], y as [b2 p2 n2 c2].
  unfold SizeClassInfo_eqb; simpl. intros H.
  apply andb_prop in H. destruct H as [H Hc].
  apply andb_prop in H. destruct H as [H Hn].
  apply andb_prop in H. destruct H as [Hb Hp].
  apply Z.eqb_eq in Hb, Hp, Hn, Hc. congruence.
Qed.

Lemma class_zero (cfg : Config) : class_at cfg 0 = Some zero_info.
Proof.
  assert (H : sentinel_first cfg = true) by by_tables cfg.
  unfold sentinel_first in H. unfold class_at.
  destruct (kSizeClasses cfg) as [|c0 t]; [discriminate H|].
  simpl. f_equal. apply SizeClassInfo_eqb_eq, H.
Qed.


(** * Rounding a request up to a class *)

Lemma first_fit_least (s : Z) (l : list SizeClassInfo) :
  forall k : nat,
    (exists c, In c l /\ s <= bytes c) ->
    exists n c,
      first_fit s l k = Some (k + n)%nat /\
      nth_error l n = Some c /\ s <= bytes c /\
      (forall m d, (m < n)%nat -> nth_error l m = Some d -> bytes d < s).
Proof.
  induction l as [|a t IH]; intros k [c [Hin Hle]].
  - contradiction.
  - simpl. destruct (s <=? bytes a) eqn:Ha.
    + exists 0%nat, a. rewrite Nat.add_0_r. apply Z.leb_le in Ha.
      repeat split; auto. intros m d Hm. lia.
    + apply Z.leb_gt in Ha.
      destruct Hin as [<- | Hin]; [lia|].
      destruct (IH (S k)) as (n & c' & Hff & Hnth & Hc' & Hmin).
      { exists c. split; assumption. }
      exists (S n), c'. rewrite Nat.add_succ_r.
      repeat split; auto.
      intros [|m] d Hm Hd; simpl in Hd.
      * injection Hd as <-. exact Ha.
      * apply (Hmin m d); [lia | exact Hd].
Qed.

Lemma has_max_class_ok (cfg : Config) : has_max_class cfg = true.
Proof. by_tables cfg. Qed.

Lemma smallest_class_unique (cfg : Config) (s : Z) (i i' : nat) :
  smallest_class_for cfg s i -> smallest_class_for cfg s i' -> i' = i.
Proof.
  intros (Hi & (c & Hc & Hle) & Hmin) (Hi' & (c' & Hc' & Hle') & Hmin').
  destruct (Nat.lt_trichotomy i i') as [Hlt | [Heq | Hgt]].
  - specialize (Hmin' i c (conj Hi Hlt) Hc). lia.
  - symmetry. exact Heq.
  - specialize (Hmin i' c' (conj Hi' Hgt) Hc'). lia.
Qed.

(** C9.  In every configuration, every request of [s] bytes with
    [1 <= s <= kMaxSize] has a smallest class index [i >= 1] whose size is
    at least [s], and only one; the search [round_up_class] returns it.
    Rounding a request up to its class is therefore a total function on
    that range. *)
Theorem round_up_well_defined (cfg : Config) (s : Z) :
  1 <= s <= kMaxSize cfg ->
  exists i,
    round_up_class cfg s = Some i /\
    smallest_class_for cfg s i /\
    (forall i', smallest_class_for cfg s i' -> i' = i).
Proof.
  intros [Hlo Hhi].
  destruct (first_fit_least s (classes cfg) 1) as (n & c & Hff & Hnth & Hc & Hmin).
  { pose proof (has_max_class_ok cfg) as Hmax.
    apply existsb_exists in Hmax. destruct Hmax as (m & Hin & Hm).
    apply Z.eqb_eq in Hm. exists m. split; [exact Hin | lia]. }
  assert (Hsmall : smallest_class_for cfg s (S n)).
  { repeat split.
    - lia.
    - exists c. rewrite class_at_classes. split; assumption.
    - intros [|j] d Hj Hd; [lia|].
      rewrite class_at_classes in Hd. apply (Hmin j d); [lia | exact Hd]. }
  exists (S n). split; [exact Hff|]. split; [exact Hsmall|].
  intros i' Hi'. exact (smallest_class_unique cfg s (S n) i' Hsmall Hi').
Qed.

Lemma round_up_well_defined_witness :
  1 <= 65 <= kMaxSize aligned8_shift13 /\
  exists i, round_up_class aligned8_shift13 65 = Some i /\
            smallest_class_for aligned8_shift13 65 i.
Proof.
  assert (Hrange : 1 <= 65 <= kMaxSize aligned8_shift13)
    by (split; apply Z.leb_le; reflexivity).
  destruct (round_up_well_defined aligned8_shift13 65 Hrange)
    as (i & Hfit & Hsmall & _).
  split; [exact Hrange|].
  exists i. split; [exact Hfit | exact Hsmall].
Defined.

(** A request of 65 bytes goes to class 5, of 72 bytes; one of
    [kMaxSize] bytes to the last class; a larger one to no class. *)
Example round_up_samples :
  round_up_class aligned8_shift13 65 = Some 5%nat /\
  round_up_class aligned8_shift13 1 = Some 1%nat /\
  round_up_class aligned8_shift13 262144 = Some 81%nat /\
  round_up_class aligned8_shift13 262145 = None.
Proof. repeat split. Qed.

(** As the sizes increase, every class after the one a request rounds up
    to holds the request as well: a search by bisection over the sizes
    finds the same class. *)
Lemma later_classes_fit (cfg : Config) (s : Z) (i j : nat) (cj : SizeClassInfo) :
  smallest_class_for cfg s i -> (i <= j)%nat ->
  class_at cfg j = Some cj -> s <= bytes cj.
Proof.
  intros (Hi & (c & Hc & Hle) & _) Hij Hcj.
  destruct (Nat.eq_dec i j) as [->|Hne].
  - rewrite Hc in Hcj. injection Hcj as <-. exact Hle.
  - destruct i as [|i']; [lia|]. destruct j as [|j']; [lia|].
    rewrite class_at_classes in Hc, Hcj.
    pose proof (classes_sizes_ordered cfg i' j' c cj) as Hinc.
    assert (bytes c < bytes cj) by (apply Hinc; [lia | assumption | assumption]).
    lia.
Qed.

(** * The arrays and their documentation *)

(** X1.  In every branch the initialiser list has exactly [kCount] rows, so
    the array is the rows as written: none is dropped and no
    value-initialised row follows them.  Class 0 is then the only row equal
    to [{0, 0, 0, 0}]. *)
Theorem arrays_fully_initialised (cfg : Config) :
  length (initializer cfg) = kCount cfg /\
  kSizeClasses cfg = initializer cfg /\
  (forall i c, class_at cfg i = Some c -> bytes c = 0 -> i = 0%nat).
Proof.
  split; [by_tables cfg|].
  split; [by_tables cfg|].
  intros [|i'] c Hc Hzero; [reflexivity|].
  rewrite class_at_classes in Hc.
  pose proof (forallb_nth_error _ _ _ _ (spans_fit_ok cfg) Hc) as Hchk.
  apply andb_prop in Hchk. destruct Hchk as [Hpos _].
  apply Z.ltb_lt in Hpos. lia.
Qed.

(** X2.  The [objs] column printed beside the rows is, row by row, the
    number of objects of a span computed from the fields and from pages of
    [1 << TCMALLOC_PAGE_SHIFT] bytes. *)
Theorem objs_column_agrees (cfg : Config) :
  map (objects_per_span cfg) (kSizeClasses cfg) = objs_column cfg.
Proof. by_tables cfg. Qed.

(** * More on batches and capacities *)

(** X3.  The batch of every class [>= 1] is the number of objects that
    make 64 KiB, kept between 2 and 32. *)
Theorem batch_follows_rule (cfg : Config) (i : nat) (c : SizeClassInfo) :
  (1 <= i)%nat -> class_at cfg i = Some c ->
  batch c = Z.max 2 (Z.min 32 (65536 / bytes c)) /\ 2 <= batch c <= 32.
Proof.
  intros Hi Hc.
  pose proof (batch_is_batch_rule cfg i c Hi Hc) as Hrule.
  pose proof (batch_rule_range (bytes c)) as Hrange.
  rewrite Hrule. split; [reflexivity | exact Hrange].
Qed.

Lemma batch_follows_rule_witness :
  batch (Info 2816 3 23 134) = Z.max 2 (Z.min 32 (65536 / 2816)) /\
  2 <= batch (Info 2816 3 23 134) <= 32.
Proof.
  apply (batch_follows_rule aligned8_shift13 47); [lia | reflexivity].
Defined.

Lemma batch_rule_volume (size : Z) :
  0 < size ->
  (size <= 32768 -> batch_rule size * size <= 65536) /\
  (32768 < size -> batch_rule size = 2).
Proof.
  intros Hpos. unfold batch_rule. split; intros Hsize.
  - assert (Hq : 2 <= 65536 / size) by (apply Z.div_le_lower_bound; lia).
    pose proof (Z.mul_div_le 65536 size Hpos) as Hmul.
    rewrite Z.max_r by lia.
    destruct (Z.min_spec 32 (65536 / size)) as [[Hlt ->] | [_ ->]]; [|lia].
    apply Z.le_trans with (m := size * (65536 / size)); [|exact Hmul].
    rewrite (Z.mul_comm 32 size). apply Z.mul_le_mono_nonneg_l; lia.
  - assert (Hq : 65536 / size < 2) by (apply Z.div_lt_upper_bound; lia).
    lia.
Qed.

(** X4.  One transfer of a class of at most 32768 bytes moves at most
    64 KiB; the larger classes move 2 objects. *)
Theorem transfer_volume (cfg : Config) (i : nat) (c : SizeClassInfo) :
  (1 <= i)%nat -> class_at cfg i = Some c ->
  (bytes c <= 32768 -> batch c * bytes c <= 65536) /\
  (32768 < bytes c -> batch c = 2).
Proof.
  intros Hi Hc.
  rewrite (batch_is_batch_rule cfg i c Hi Hc).
  apply batch_rule_volume.
  destruct i as [|i']; [lia|].
  rewrite class_at_classes in Hc.
  pose proof (forallb_nth_error _ _ _ _ (spans_fit_ok cfg) Hc) as Hchk.
  apply andb_prop in Hchk. destruct Hchk as [Hpos _].
  apply Z.ltb_lt. exact Hpos.
Qed.

Lemma transfer_volume_witness :
  batch (Info 2816 3 23 134) * bytes (Info 2816 3 23 134) <= 65536 /\
  batch (Info 262144 32 2 128) = 2.
Proof.
  split.
  - apply (transfer_volume aligned8_shift13 47); [lia | reflexivity |].
    apply Z.leb_le. reflexivity.
  - apply (transfer_volume aligned8_shift13 81); [lia | reflexivity |].
    apply Z.ltb_lt. reflexivity.
Defined.

Lemma caps_hold_batch_ok (cfg : Config) : caps_hold_batch cfg = true.
Proof. by_tables cfg. Qed.

(** X5.  The cache capacity of every class [>= 1] is at least its batch:
    the objects of one transfer fit in a cache of that capacity. *)
Theorem capacity_holds_a_batch (cfg : Config) (i : nat) (c : SizeClassInfo) :
  (1 <= i)%nat -> class_at cfg i = Some c ->
  0 < batch c <= cap c.
Proof.
  intros Hi Hc.
  destruct i as [|i']; [lia|].
  rewrite class_at_classes in Hc.
  pose proof (forallb_nth_error _ _ _ _ (caps_hold_batch_ok cfg) Hc) as Hchk.
  apply andb_prop in Hchk. destruct Hchk as [Hpos Hle].
  apply Z.ltb_lt in Hpos. apply Z.leb_le in Hle. lia.
Qed.

Lemma capacity_holds_a_batch_witness :
  0 < batch (Info 13952 3 4 116) <= cap (Info 13952 3 4 116).
Proof.
  apply (capacity_holds_a_batch
           {| new_alignment := Aligned8; shift := Shift15 |} 54);
    [lia | reflexivity].
Defined.

Lemma same_geometry_ok (s : PageShift) : same_geometry s = true.
Proof. destruct s; vm_compute; reflexivity. Qed.

(** X6.  A size that both tables of a page shift have as a class has the
    same pages per span and the same batch in both: the alignment mode
    changes which sizes are classes, not how a size is served. *)
Theorem modes_share_geometry
    (s : PageShift) (i j : nat) (c c' : SizeClassInfo) :
  class_at {| new_alignment := Aligned8; shift := s |} i = Some c ->
  class_at {| new_alignment := DefaultNew; shift := s |} j = Some c' ->
  bytes c = bytes c' ->
  pages c = pages c' /\ batch c = batch c'.
Proof.
  intros Hc Hc' Hsame.
  pose proof (forallb_nth_error _ _ _ _ (same_geometry_ok s) Hc) as Hrow.
  pose proof (forallb_nth_error _ _ _ _ Hrow Hc') as Hpair.
  apply orb_prop in Hpair. destruct Hpair as [Hdiff | Heq].
  - apply negb_true_iff, Z.eqb_neq in Hdiff. contradiction.
  - apply andb_prop in Heq. destruct Heq as [Hp Hb].
    apply Z.eqb_eq in Hp, Hb. split; assumption.
Qed.

Lemma modes_share_geometry_witness :
  pages (Info 3584 4 18 131) = pages (Info 3584 4 18 152) /\
  batch (Info 3584 4 18 131) = batch (Info 3584 4 18 152).
Proof.
  apply (modes_share_geometry Shift13 50 47); reflexivity.
Defined.

(** * More on the sizes *)

Lemma powers_of_two_present_ok (cfg : Config) :
  powers_of_two_present cfg = true.
Proof. by_tables cfg. Qed.

Lemma kMaxSize_le (cfg : Config) : kMaxSize cfg <= 2 ^ 18.
Proof. destruct cfg as [[] []]; vm_compute; discriminate. Qed.

Lemma exponents_spec (k : Z) : 3 <= k <= 18 -> In k exponents.
Proof.
  intros Hk. unfold exponents.
  replace k with (Z.of_nat (Z.to_nat k)) by lia.
  apply in_map, in_seq. lia.
Qed.

(** X7.  Every power of two from 8 bytes up to [kMaxSize] is the size of
    a class, in every configuration: a request of such a size is served
    without rounding. *)
Theorem powers_of_two_are_classes (cfg : Config) (k : Z) :
  3 <= k -> 2 ^ k <= kMaxSize cfg ->
  exists i c, (1 <= i)%nat /\ class_at cfg i = Some c /\ bytes c = 2 ^ k.
Proof.
  intros Hlo Hhi.
  assert (Hk : k <= 18).
  { destruct (Z_le_gt_dec k 18) as [Hle | Hgt]; [exact Hle|].
    pose proof (kMaxSize_le cfg) as Hmax.
    assert (2 ^ 19 <= 2 ^ k) by (apply Z.pow_le_mono_r; lia).
    assert (2 ^ 18 < 2 ^ 19) by (apply Z.pow_lt_mono_r; lia).
    lia. }
  pose proof (powers_of_two_present_ok cfg) as Hall.
  unfold powers_of_two_present in Hall. rewrite forallb_forall in Hall.
  specialize (Hall k (exponents_spec k (conj Hlo Hk))).
  apply orb_prop in Hall. destruct Hall as [Habove | Hthere].
  - apply Z.ltb_lt in Habove. lia.
  - apply existsb_exists in Hthere. destruct Hthere as (c & Hin & Hc).
    apply Z.eqb_eq in Hc.
    apply In_nth_error in Hin. destruct Hin as [n Hn].
    exists (S n), c. rewrite class_at_classes.
    split; [lia|]. split; assumption.
Qed.

Lemma powers_of_two_are_classes_witness :
  3 <= 12 /\ 2 ^ 12 <= kMaxSize aligned8_shift13 /\
  exists i c, (1 <= i)%nat /\ class_at aligned8_shift13 i = Some c /\
              bytes c = 2 ^ 12.
Proof.
  assert (Hhi : 2 ^ 12 <= kMaxSize aligned8_shift13)
    by (apply Z.leb_le; reflexivity).
  split; [lia|]. split; [exact Hhi|].
  apply (powers_of_two_are_classes aligned8_shift13 12); [lia | exact Hhi].
Defined.

Lemma large_sizes_by_128_ok (cfg : Config) : large_sizes_by_128 cfg = true.
Proof. by_tables cfg. Qed.

(** X8.  In every configuration a class of more than 1024 bytes is a
    multiple of 128 bytes. *)
Theorem large_sizes_multiple_of_128
    (cfg : Config) (i : nat) (c : SizeClassInfo) :
  class_at cfg i = Some c -> 1024 < bytes c -> bytes c mod 128 = 0.
Proof.
  intros Hc Hlarge.
  destruct i as [|i'].
  - rewrite class_zero in Hc. injection Hc as <-. simpl in Hlarge. lia.
  - rewrite class_at_classes in Hc.
    pose proof (forallb_nth_error _ _ _ _ (large_sizes_by_128_ok cfg) Hc) as Hchk.
    apply orb_prop in Hchk. destruct Hchk as [Hsmall | Hmod].
    + apply Z.leb_le in Hsmall. lia.
    + apply Z.eqb_eq. exact Hmod.
Qed.

Lemma large_sizes_multiple_of_128_witness :
  1024 < bytes (Info 13568 5 4 129) /\ bytes (Info 13568 5 4 129) mod 128 = 0.
Proof.
  assert (Hlarge : 1024 < bytes (Info 13568 5 4 129))
    by (apply Z.ltb_lt; reflexivity).
  split; [exact Hlarge|].
  apply (large_sizes_multiple_of_128 aligned8_shift13 60);
    [reflexivity | exact Hlarge].
Defined.

(** * Fixed overhead *)

(** The example of the comment: 85 objects, 32 bytes left over and an
    overhead of [(32 + 48) / (8192 - 32)]. *)
Example fixed_waste_of_96_bytes :
  objects_per_span aligned8_shift13 (Info 96 1 32 1206) = 85 /\
  leftover_bytes aligned8_shift13 (Info 96 1 32 1206) = 32 /\
  (fixed_waste aligned8_shift13 (Info 96 1 32 1206) == (32 + 48) # (8192 - 32))%Q.
Proof. repeat split. Qed.

Lemma waste_below_tenth_ok (cfg : Config) : waste_below_tenth cfg = true.
Proof. by_tables cfg. Qed.

(** X9.  In every configuration the fixed overhead of every class [>= 1],
    the bytes left over at the end of a span plus the 48 bytes of metadata
    over the bytes of the span that objects occupy, is below 10%. *)
Theorem fixed_waste_below_tenth (cfg : Config) (i : nat) (c : SizeClassInfo) :
  (1 <= i)%nat -> class_at cfg i = Some c ->
  (fixed_waste cfg c < 1 # 10)%Q.
Proof.
  intros Hi Hc.
  destruct i as [|i']; [lia|].
  rewrite class_at_classes in Hc.
  pose proof (forallb_nth_error _ _ _ _ (waste_below_tenth_ok cfg) Hc) as Hchk.
  apply negb_true_iff in Hchk.
  apply Qnot_le_lt. intros Hle.
  apply Qle_bool_iff in Hle. congruence.
Qed.

Lemma fixed_waste_below_tenth_witness :
  (fixed_waste aligned8_shift13 (Info 2816 3 23 134) < 1 # 10)%Q.
Proof.
  apply (fixed_waste_below_tenth aligned8_shift13 47); [lia | reflexivity].
Defined.

(** * Loss by rounding up *)

Lemma small_classes_ok (cfg : Config) : small_classes cfg = true.
Proof. by_tables cfg. Qed.

Lemma steps_at_most_double_ok (cfg : Config) : steps_at_most_double cfg = true.
Proof. by_tables cfg. Qed.

Lemma steps_at_most_third_ok (cfg : Config) : steps_at_most_third cfg = true.
Proof. by_tables cfg. Qed.

Lemma nth_error_before {A : Type} (l : list A) (n : nat) (y : A) :
  nth_error l (S n) = Some y -> exists x, nth_error l n = Some x.
Proof.
  intros Hy.
  destruct (nth_error l n) as [x|] eqn:Hx; [exists x; reflexivity|].
  apply nth_error_None in Hx.
  assert (Hnone : nth_error l (S n) = None) by (apply nth_error_None; lia).
  congruence.
Qed.

(** The first four classes have at most 64 bytes. *)
Lemma first_classes_at_most_64 (cfg : Config) (n : nat) (c : SizeClassInfo) :
  (n <= 3)%nat -> nth_error (classes cfg) n = Some c -> bytes c <= 64.
Proof.
  intros Hn Hc.
  pose proof (small_classes_ok cfg) as Hchk. unfold small_classes in Hchk.
  destruct (nth_error (classes cfg) 0) as [c1|]; [|discriminate Hchk].
  destruct (nth_error (classes cfg) 3) as [c4|] eqn:Hc4; [|discriminate Hchk].
  simpl in Hchk. apply andb_prop in Hchk. destruct Hchk as [_ H64].
  apply Z.eqb_eq in H64.
  destruct (Nat.eq_dec n 3) as [->|Hne].
  - rewrite Hc4 in Hc. injection Hc as <-. lia.
  - pose proof (classes_sizes_ordered cfg n 3 c c4) as Hlt.
    assert (bytes c < bytes c4) by (apply Hlt; [lia | assumption | assumption]).
    lia.
Qed.

Lemma first_fit_sound (s : Z) (l : list SizeClassInfo) :
  forall k j : nat,
    first_fit s l k = Some j ->
    exists n c,
      j = (k + n)%nat /\ nth_error l n = Some c /\ s <= bytes c /\
      (forall m d, (m < n)%nat -> nth_error l m = Some d -> bytes d < s).
Proof.
  induction l as [|a t IH]; intros k j Hj; simpl in Hj; [discriminate Hj|].
  destruct (s <=? bytes a) eqn:Ha.
  - injection Hj as <-. apply Z.leb_le in Ha.
    exists 0%nat, a.
    split; [lia|]. split; [reflexivity|]. split; [exact Ha|].
    intros m d Hm. lia.
  - apply Z.leb_gt in Ha.
    destruct (IH (S k) j Hj) as (n & c & -> & Hn & Hc & Hmin).
    exists (S n), c.
    split; [lia|]. split; [exact Hn|]. split; [exact Hc|].
    intros [|m] d Hm Hd; simpl in Hd.
    + injection Hd as <-. exact Ha.
    + apply (Hmin m d); [lia | exact Hd].
Qed.

(** What the search returns is the smallest class holding the request. *)
Lemma round_up_class_smallest (cfg : Config) (s : Z) (i : nat) :
  round_up_class cfg s = Some i -> smallest_class_for cfg s i.
Proof.
  intros Hi. unfold round_up_class in Hi.
  destruct (first_fit_sound s (classes cfg) 1 i Hi) as (n & c & -> & Hn & Hc & Hmin).
  repeat split.
  - lia.
  - exists c. change (1 + n)%nat with (S n). rewrite class_at_classes.
    split; assumption.
  - intros [|j] d Hj Hd; [lia|].
    rewrite class_at_classes in Hd. apply (Hmin j d); [lia | exact Hd].
Qed.

(** X10.  In every configuration, the class a request of [s] bytes rounds
    up to, for [8 <= s <= kMaxSize], has fewer than [2 * s] bytes; when
    [s] is above 64 it has fewer than [4/3 * s] bytes, so less than a
    quarter of the block is lost to rounding. *)
Theorem rounding_loss_bounded
    (cfg : Config) (s : Z) (i : nat) (c : SizeClassInfo) :
  8 <= s <= kMaxSize cfg ->
  smallest_class_for cfg s i -> class_at cfg i = Some c ->
  bytes c < 2 * s /\ (64 < s -> 3 * bytes c < 4 * s).
Proof.
  intros [Hlo Hhi] (Hi & (c0 & Hc0 & Hle) & Hmin) Hc.
  rewrite Hc in Hc0. injection Hc0 as <-.
  destruct i as [|n]; [lia|].
  rewrite class_at_classes in Hc.
  destruct n as [|m].
  - (* class 1, of 8 bytes *)
    pose proof (small_classes_ok cfg) as Hchk. unfold small_classes in Hchk.
    rewrite Hc in Hchk.
    destruct (nth_error (classes cfg) 3) as [c4|]; cbn [option_map] in Hchk;
      [|discriminate Hchk].
    apply andb_prop in Hchk. destruct Hchk as [H8 _]. apply Z.eqb_eq in H8.
    split; lia.
  - destruct (nth_error_before _ _ _ Hc) as [p Hp].
    assert (Hps : bytes p < s).
    { apply (Hmin (S m) p); [lia|]. rewrite class_at_classes. exact Hp. }
    split.
    + pose proof (chain_neighbours _ _ (steps_at_most_double_ok cfg) m p c Hp Hc)
        as Hstep.
      apply Z.leb_le in Hstep. lia.
    + intros Hbig.
      destruct (le_lt_dec (S m) 3) as [Hsmall | Hlarge].
      * pose proof (first_classes_at_most_64 cfg (S m) c Hsmall Hc). lia.
      * assert (Hk : exists k, m = (3 + k)%nat) by (exists (m - 3)%nat; lia).
        destruct Hk as [k ->].
        assert (Hp' : nth_error (skipn 3 (classes cfg)) k = Some p)
          by (rewrite nth_error_skipn; exact Hp).
        assert (Hc' : nth_error (skipn 3 (classes cfg)) (S k) = Some c).
        { rewrite nth_error_skipn.
          replace (3 + S k)%nat with (S (3 + k)) by lia. exact Hc. }
        pose proof (chain_neighbours _ _ (steps_at_most_third_ok cfg) k p c Hp' Hc')
          as Hstep.
        apply Z.leb_le in Hstep. lia.
Qed.

Lemma rounding_loss_bounded_witness :
  8 <= 1537 <= kMaxSize {| new_alignment := Aligned8; shift := Shift12 |} /\
  bytes (Info 2048 4 32 530) < 2 * 1537 /\
  3 * bytes (Info 2048 4 32 530) < 4 * 1537.
Proof.
  assert (Hrange : 8 <= 1537 <= kMaxSize {| new_alignment := Aligned8; shift := Shift12 |})
    by (split; apply Z.leb_le; reflexivity).
  assert (Hsmall : smallest_class_for
                     {| new_alignment := Aligned8; shift := Shift12 |} 1537 33).
  { apply round_up_class_smallest. reflexivity. }
  destruct (rounding_loss_bounded
              {| new_alignment := Aligned8; shift := Shift12 |} 1537 33
              (Info 2048 4 32 530) Hrange Hsmall eq_refl) as [Hdouble Hthird].
  split; [exact Hrange|]. split; [exact Hdouble|].
  apply Hthird. apply Z.ltb_lt. reflexivity.
Defined.

(** * Class 0 and the validation of a table *)







(** The walk does find the offender of a table that has one: with the
    sizes of classes 5 and 6 exchanged, class 6 is reported. *)
Example validate_classes_finds_offender :
  validate_classes aligned8_shift13 (1 # 10) (3 # 2)
    [zero_info; Info 8 1 32 2024; Info 16 1 32 2024; Info 32 1 32 2027;
     Info 64 1 32 2024; Info 80 1 32 2024; Info 72 1 32 1275]
  = Some 6%nat.
Proof. reflexivity. Qed.
